(** * StocktakeStatus: the string-backed enumeration of stocktake states

    Shallow embedding of
    [katana_public_api_client/generated/models/stocktake_status.py]:

<<
    class StocktakeStatus(str, Enum):
        COMPLETED = "COMPLETED"
        DRAFT = "DRAFT"
        IN_PROGRESS = "IN_PROGRESS"

        def __str__(self) -> str:
            return str(self.value)
>>

    The class body is embedded as an inductive type with its [_name_] and
    [_value_] attributes.  What the class inherits from [Enum] (the tables
    built when the class statement runs, look-up by value, iteration,
    length) and from [str] (comparison and hashing by contents) is embedded
    as a small state-and-exception monad over the class object, so that
    raising, reading and writing are visible in the types. *)

From Stdlib Require Import ZArith.
From stdpp Require Import base option list strings gmap.

Local Open Scope string_scope.

(** ** The members written in the class body *)

Inductive StocktakeStatus : Type :=
| COMPLETED
| DRAFT
| IN_PROGRESS.

#[global] Instance StocktakeStatus_eq_dec : EqDecision StocktakeStatus.
Proof. solve_decision. Defined.

(** Left-hand side of each assignment of the class body. *)
Definition _name_ (self : StocktakeStatus) : string :=
  match self with
  | COMPLETED => "COMPLETED"
  | DRAFT => "DRAFT"
  | IN_PROGRESS => "IN_PROGRESS"
  end.

(** Right-hand side of each assignment of the class body. *)
Definition _value_ (self : StocktakeStatus) : string :=
  match self with
  | COMPLETED => "COMPLETED"
  | DRAFT => "DRAFT"
  | IN_PROGRESS => "IN_PROGRESS"
  end.

(** The assignments in the order in which the class body executes them. *)
Definition class_body : list StocktakeStatus := [COMPLETED; DRAFT; IN_PROGRESS].

(** ** Python values that reach the class

    A member is created by [str.__new__(cls, value)], so it is a [str]
    instance whose contents are its value; [VStr] is an instance of [str]
    itself.  [VInt] and [VNone] stand for objects that are no strings. *)

Inductive pyval : Type :=
| VStr (s : string)
| VEnum (m : StocktakeStatus)
| VInt (z : Z)
| VNone.

#[global] Instance pyval_eq_dec : EqDecision pyval.
Proof. solve_decision. Defined.

(** The characters of a [str] instance; [None] for other objects. *)
Definition str_data (v : pyval) : option string :=
  match v with
  | VStr s => Some s
  | VEnum m => Some (_value_ m)
  | VInt _ | VNone => None
  end.

(** [isinstance(v, str)] *)
Definition isinstance_str (v : pyval) : bool :=
  match str_data v with Some _ => true | None => false end.

(** [type(v) is StocktakeStatus] *)
Definition type_is_cls (v : pyval) : option StocktakeStatus :=
  match v with VEnum m => Some m | _ => None end.

(** [a == b].  The class takes [__eq__] from [str] (it precedes [Enum] in the
    method resolution order, and [Enum] defines none): two strings are equal
    when their characters are; a string never equals an object that is no
    string. *)
Definition eq_values (a b : pyval) : bool :=
  match str_data a, str_data b with
  | Some x, Some y => bool_decide (x = y)
  | None, None => bool_decide (a = b)
  | _, _ => false
  end.

(** ** The class object and the monad of the operations *)

Inductive exn : Type :=
| ValueError (value : pyval)   (* "<value> is not a valid StocktakeStatus" *)
| KeyError (key : string).

Inductive result (A : Type) : Type :=
| Ok (a : A)
| Raise (e : exn).
Arguments Ok {A} a.
Arguments Raise {A} e.

(** The three tables [EnumMeta] keeps on an enumeration class.  The keys of
    [_value2member_map_] are the members' values, all of them strings. *)
Record EnumType : Type := mkEnumType {
  _member_names_ : list string;
  _member_map_ : gmap string StocktakeStatus;
  _value2member_map_ : gmap string StocktakeStatus
}.

Definition Py (A : Type) : Type := EnumType → result A * EnumType.

#[global] Instance Py_ret : MRet Py := λ A a cls, (Ok a, cls).

#[global] Instance Py_bind : MBind Py := λ A B k c cls,
  match c cls with
  | (Ok a, cls') => k a cls'
  | (Raise e, cls') => (Raise e, cls')
  end.

Definition raise {A : Type} (e : exn) : Py A := λ cls, (Raise e, cls).
Definition get_cls : Py EnumType := λ cls, (Ok cls, cls).
Definition set_cls (cls : EnumType) : Py unit := λ _, (Ok tt, cls).

(** [d[key]] on a dictionary keyed by strings: hashing and comparison go by
    the characters, so a member finds the entry of its value; an object that is
    no string finds nothing. *)
Definition dict_get {A : Type} (d : gmap string A) (key : pyval) : option A :=
  s ← str_data key; d !! s.

(** ** Building the class (what the metaclass does with the class body) *)

(** One assignment [NAME = value].  A value met before makes the new name an
    alias of the member that has it; otherwise the member is new and its name
    is appended to [_member_names_]. *)
Definition define_member (m : StocktakeStatus) : Py unit :=
  cls ← get_cls;
  match _value2member_map_ cls !! _value_ m with
  | Some canonical =>
      set_cls (mkEnumType (_member_names_ cls)
                 (<[_name_ m := canonical]> (_member_map_ cls))
                 (_value2member_map_ cls))
  | None =>
      set_cls (mkEnumType (_member_names_ cls ++ [_name_ m])
                 (<[_name_ m := m]> (_member_map_ cls))
                 (<[_value_ m := m]> (_value2member_map_ cls)))
  end.

Fixpoint define_members (body : list StocktakeStatus) : Py unit :=
  match body with
  | [] => mret tt
  | m :: body' => define_member m;; define_members body'
  end.

Definition empty_cls : EnumType := mkEnumType [] ∅ ∅.

(** The class object once the [class] statement has run. *)
Definition StocktakeStatus_cls : EnumType := snd (define_members class_body empty_cls).

(** Result of an operation on the finished class. *)
Definition run {A : Type} (c : Py A) : result A := fst (c StocktakeStatus_cls).

(** ** The operations *)

(** [Enum._missing_]: the default hook finds nothing. *)
Definition _missing_ (value : pyval) : Py (option StocktakeStatus) := mret None.

(** [StocktakeStatus(value)], that is [Enum.__new__(cls, value)]. *)
Definition StocktakeStatus_call (value : pyval) : Py StocktakeStatus :=
  match type_is_cls value with
  | Some m => mret m
  | None =>
      cls ← get_cls;
      match dict_get (_value2member_map_ cls) value with
      | Some m => mret m
      | None =>
          found ← _missing_ value;
          match found with
          | Some m => mret m
          | None => raise (ValueError value)
          end
      end
  end.

(** [self.value] *)
Definition value (self : StocktakeStatus) : Py string := mret (_value_ self).

(** [str(s)] on an instance of [str] itself. *)
Definition str (s : string) : Py string := mret s.

(** [StocktakeStatus.__str__]: [return str(self.value)]. *)
Definition __str__ (self : StocktakeStatus) : Py string :=
  v ← value self; str v.

(** [self.name] *)
Definition name (self : StocktakeStatus) : Py string := mret (_name_ self).

(** [a == b] as an operation. *)
Definition __eq__ (a b : pyval) : Py bool := mret (eq_values a b).

(** [cls._member_map_[n] for n in names] *)
Fixpoint members_of (names : list string) : Py (list StocktakeStatus) :=
  match names with
  | [] => mret []
  | n :: names' =>
      cls ← get_cls;
      match _member_map_ cls !! n with
      | Some m => ms ← members_of names'; mret (m :: ms)
      | None => raise (KeyError n)
      end
  end.

(** [list(StocktakeStatus)], that is [EnumMeta.__iter__]. *)
Definition __iter__ : Py (list StocktakeStatus) :=
  cls ← get_cls; members_of (_member_names_ cls).

(** [len(StocktakeStatus)], that is [EnumMeta.__len__]. *)
Definition __len__ : Py nat :=
  cls ← get_cls; mret (length (_member_names_ cls)).

(** [StocktakeStatus[key]] for a plain string [key], that is
    [EnumMeta.__getitem__]: [return cls._member_map_[name]]. *)
Definition __getitem__ (key : string) : Py StocktakeStatus :=
  cls ← get_cls;
  match _member_map_ cls !! key with
  | Some m => mret m
  | None => raise (KeyError key)
  end.

(** ** Operations that only read the class object *)

Definition readonly {A : Type} (c : Py A) : Prop := ∀ cls, snd (c cls) = cls.

Section Readonly.
Context {A B : Type}.

Lemma readonly_ret (a : A) : readonly (mret a).
Proof. intros cls. reflexivity. Qed.

Lemma readonly_raise (e : exn) : readonly (raise (A:=A) e).
Proof. intros cls. reflexivity. Qed.

Lemma readonly_bind (c : Py A) (k : A → Py B) :
  readonly c → (∀ a, readonly (k a)) → readonly (c ≫= k).
Proof.
  intros Hc Hk cls. unfold mbind, Py_bind.
  specialize (Hc cls). destruct (c cls) as [[a|e] cls']; simpl in Hc; subst cls'.
  - apply Hk.
  - reflexivity.
Qed.
End Readonly.

Lemma readonly_get_cls : readonly get_cls.
Proof. intros cls. reflexivity. Qed.

Create HintDb readonly.
#[global] Hint Resolve readonly_ret readonly_raise readonly_get_cls : readonly.
#[global] Hint Extern 2 (readonly (_ ≫= _)) => apply readonly_bind; [ | intros ] : readonly.
#[global] Hint Extern 4 (readonly (match ?x with _ => _ end)) => destruct x : readonly.

Lemma readonly_members_of (names : list string) : readonly (members_of names).
Proof.
  induction names as [|n names IH]; simpl; auto with readonly.
Qed.

Lemma readonly_call (v : pyval) : readonly (StocktakeStatus_call v).
Proof. unfold StocktakeStatus_call, _missing_. auto 8 with readonly. Qed.

Lemma readonly_str (self : StocktakeStatus) : readonly (__str__ self).
Proof. unfold __str__, value, str. auto with readonly. Qed.

Lemma readonly_eq (a b : pyval) : readonly (__eq__ a b).
Proof. unfold __eq__. auto with readonly. Qed.

Lemma readonly_iter : readonly __iter__.
Proof. unfold __iter__. pose proof readonly_members_of. auto with readonly. Qed.

Lemma readonly_len : readonly __len__.
Proof. unfold __len__. auto with readonly. Qed.

(** Building the class is the one computation that writes. *)
Lemma define_members_writes : ¬ readonly (define_members class_body).
Proof. intros H. specialize (H empty_cls). discriminate H. Qed.

(** ** The tables of the finished class *)

Lemma class_built : define_members class_body empty_cls = (Ok tt, StocktakeStatus_cls).
Proof. reflexivity. Qed.

Lemma member_names_built :
  _member_names_ StocktakeStatus_cls = ["COMPLETED"; "DRAFT"; "IN_PROGRESS"].
Proof. reflexivity. Qed.

Lemma member_map_built :
  _member_map_ StocktakeStatus_cls =
  <["IN_PROGRESS" := IN_PROGRESS]> (<["DRAFT" := DRAFT]> (<["COMPLETED" := COMPLETED]> ∅)).
Proof. reflexivity. Qed.

Lemma value2member_map_built :
  _value2member_map_ StocktakeStatus_cls =
  <["IN_PROGRESS" := IN_PROGRESS]> (<["DRAFT" := DRAFT]> (<["COMPLETED" := COMPLETED]> ∅)).
Proof. reflexivity. Qed.

Lemma value_inj (v w : StocktakeStatus) : _value_ v = _value_ w → v = w.
Proof. destruct v, w; simpl; intros H; (reflexivity || discriminate H). Qed.

Lemma value2member_lookup (s : string) (m : StocktakeStatus) :
  _value2member_map_ StocktakeStatus_cls !! s = Some m ↔ s = _value_ m.
Proof.
  rewrite value2member_map_built. split.
  - intros H. repeat (apply lookup_insert_Some in H as [[<- <-]|[_ H]]; [reflexivity|]).
    by rewrite lookup_empty in H.
  - intros ->. by destruct m.
Qed.

Lemma value2member_lookup_value (m : StocktakeStatus) :
  _value2member_map_ StocktakeStatus_cls !! _value_ m = Some m.
Proof. by apply value2member_lookup. Qed.

Lemma value2member_lookup_None (s : string) :
  s ∉ ["COMPLETED"; "DRAFT"; "IN_PROGRESS"] →
  _value2member_map_ StocktakeStatus_cls !! s = None.
Proof.
  intros Hs. apply eq_None_not_Some. intros [m Hm].
  apply value2member_lookup in Hm. subst s. apply Hs.
  destruct m; simpl; set_solver.
Qed.

Lemma member_map_lookup (n : string) (m : StocktakeStatus) :
  _member_map_ StocktakeStatus_cls !! n = Some m ↔ n = _name_ m.
Proof.
  rewrite member_map_built. split.
  - intros H. repeat (apply lookup_insert_Some in H as [[<- <-]|[_ H]]; [reflexivity|]).
    by rewrite lookup_empty in H.
  - intros ->. by destruct m.
Qed.

(** What [StocktakeStatus(value)] does on the finished class, by the kind of
    its argument. *)
Lemma call_member (m : StocktakeStatus) (cls : EnumType) :
  StocktakeStatus_call (VEnum m) cls = (Ok m, cls).
Proof. reflexivity. Qed.

Lemma call_str (s : string) :
  StocktakeStatus_call (VStr s) StocktakeStatus_cls =
  match _value2member_map_ StocktakeStatus_cls !! s with
  | Some m => (Ok m, StocktakeStatus_cls)
  | None => (Raise (ValueError (VStr s)), StocktakeStatus_cls)
  end.
Proof.
  cbv [StocktakeStatus_call type_is_cls dict_get str_data mbind Py_bind get_cls option_bind].
  destruct (_value2member_map_ StocktakeStatus_cls !! s); reflexivity.
Qed.

Lemma call_no_str (v : pyval) (cls : EnumType) :
  str_data v = None → StocktakeStatus_call v cls = (Raise (ValueError v), cls).
Proof. destruct v; simpl; intros H; (discriminate H || reflexivity). Qed.

Lemma call_Ok (v : pyval) (m : StocktakeStatus) :
  run (StocktakeStatus_call v) = Ok m ↔ str_data v = Some (_value_ m).
Proof.
  unfold run. destruct v as [s|m'|z|]; simpl.
  - rewrite call_str.
    destruct (_value2member_map_ StocktakeStatus_cls !! s) as [m'|] eqn:E; simpl.
    + apply value2member_lookup in E. subst s. split.
      * by intros [= ->].
      * by intros [= ->%value_inj].
    + split; [done|]. intros [= ->]. by rewrite value2member_lookup_value in E.
  - split.
    + by intros [= ->].
    + by intros [= ->%value_inj].
  - split; intros H; discriminate H.
  - split; intros H; discriminate H.
Qed.

Lemma iter_built : run __iter__ = Ok [COMPLETED; DRAFT; IN_PROGRESS].
Proof. reflexivity. Qed.

Lemma eq_members (v w : StocktakeStatus) :
  eq_values (VEnum v) (VEnum w) = true ↔ v = w.
Proof.
  unfold eq_values. simpl. rewrite bool_decide_eq_true. split.
  - apply value_inj.
  - by intros ->.
Qed.

(** ** Construction *)

(** C1.  Calling the class on a string that is none of ["COMPLETED"],
    ["DRAFT"], ["IN_PROGRESS"] raises the invalid-value error ([ValueError],
    "... is not a valid StocktakeStatus") carrying that string: no member is
    returned, neither a default one nor any other, and the class object is as
    before. *)
Theorem call_unrecognized_token (s : string) :
  s ∉ ["COMPLETED"; "DRAFT"; "IN_PROGRESS"] →
  StocktakeStatus_call (VStr s) StocktakeStatus_cls
    = (Raise (ValueError (VStr s)), StocktakeStatus_cls)
  ∧ ∀ m, run (StocktakeStatus_call (VStr s)) ≠ Ok m.
Proof.
  intros Hs. assert (E := value2member_lookup_None s Hs). split.
  - by rewrite call_str, E.
  - intros m. unfold run. by rewrite call_str, E.
Qed.

Lemma call_unrecognized_token_witness :
  (("completed" ∉ ["COMPLETED"; "DRAFT"; "IN_PROGRESS"])
   ∧ run (StocktakeStatus_call (VStr "completed")) = Raise (ValueError (VStr "completed")))
  ∧ (("" ∉ ["COMPLETED"; "DRAFT"; "IN_PROGRESS"])
     ∧ run (StocktakeStatus_call (VStr "")) = Raise (ValueError (VStr ""))).
Proof.
  assert (Hlower : "completed" ∉ ["COMPLETED"; "DRAFT"; "IN_PROGRESS"]).
  { apply (bool_decide_unpack _). vm_compute. exact I. }
  assert (Hempty : "" ∉ ["COMPLETED"; "DRAFT"; "IN_PROGRESS"]).
  { apply (bool_decide_unpack _). vm_compute. exact I. }
  split; (split; [assumption|]); unfold run.
  - destruct (call_unrecognized_token "completed" Hlower) as [-> _]. reflexivity.
  - destruct (call_unrecognized_token "" Hempty) as [-> _]. reflexivity.
Defined.

(** C2.  Round trip: calling the class on the string that [__str__] returns
    for a member gives that member back. *)
Theorem call_str_roundtrip (v : StocktakeStatus) :
  run (s ← __str__ v; StocktakeStatus_call (VStr s)) = Ok v.
Proof.
  unfold run, __str__, value, str.
  change (fst (StocktakeStatus_call (VStr (_value_ v)) StocktakeStatus_cls) = Ok v).
  by rewrite call_str, value2member_lookup_value.
Qed.

(** C9.  Calling the class on one of its own members (a string whose
    characters are the member's token) returns that very member, without
    error and in any state of the class; hence calling the class on the
    result of a call changes nothing. *)
Theorem call_idempotent :
  (∀ v cls, StocktakeStatus_call (VEnum v) cls = (Ok v, cls))
  ∧ (∀ v, str_data (VEnum v) = Some (_value_ v))
  ∧ (∀ x, run (m ← StocktakeStatus_call x; StocktakeStatus_call (VEnum m))
          = run (StocktakeStatus_call x)).
Proof.
  split; [|split].
  - intros v cls. apply call_member.
  - reflexivity.
  - intros x. unfold run, mbind, Py_bind.
    destruct (StocktakeStatus_call x StocktakeStatus_cls) as [[m|e] cls']; reflexivity.
Qed.

(** ** String conversion *)

(** C3.  For each member, [__str__] returns the member's symbolic name, and
    the member's value is the string equal to its name. *)
Theorem str_is_name :
  (∀ v, run (__str__ v) = Ok (_name_ v))
  ∧ (∀ v, _value_ v = _name_ v)
  ∧ (∀ v, run (value v) = run (name v))
  ∧ run (__str__ COMPLETED) = Ok "COMPLETED"
  ∧ run (__str__ DRAFT) = Ok "DRAFT"
  ∧ run (__str__ IN_PROGRESS) = Ok "IN_PROGRESS".
Proof.
  repeat split; try intros v; try destruct v; reflexivity.
Qed.

(** C6.  [__str__] is total: for every member and whatever the state of the
    class, it returns normally, with the member's token. *)
Theorem str_total (v : StocktakeStatus) (cls : EnumType) :
  __str__ v cls = (Ok (_value_ v), cls).
Proof. reflexivity. Qed.

(** ** The member set *)

(** C4.  The class has exactly three members, [COMPLETED], [DRAFT] and
    [IN_PROGRESS]: its length is 3, its by-value table has 3 entries, every
    member is one of the three, the members a call can return are exactly
    these, and a call never adds to the class. *)
Theorem exactly_three_members :
  run __len__ = Ok 3
  ∧ run __iter__ = Ok [COMPLETED; DRAFT; IN_PROGRESS]
  ∧ NoDup [COMPLETED; DRAFT; IN_PROGRESS]
  ∧ size (_value2member_map_ StocktakeStatus_cls) = 3
  ∧ (∀ m : StocktakeStatus, m ∈ [COMPLETED; DRAFT; IN_PROGRESS])
  ∧ (∀ m, (∃ x, run (StocktakeStatus_call x) = Ok m) ↔ m ∈ [COMPLETED; DRAFT; IN_PROGRESS])
  ∧ (∀ x cls, snd (StocktakeStatus_call x cls) = cls).
Proof.
  assert (Hall : ∀ m : StocktakeStatus, m ∈ [COMPLETED; DRAFT; IN_PROGRESS]).
  { intros m. destruct m; set_solver. }
  split; [reflexivity|]. split; [apply iter_built|]. split.
  { apply (bool_decide_unpack _). vm_compute. exact I. }
  split.
  { rewrite value2member_map_built.
    rewrite !map_size_insert_None, map_size_empty; try reflexivity;
      repeat (rewrite lookup_insert_ne by discriminate); apply lookup_empty. }
  split; [exact Hall|]. split.
  - intros m. split; [intros _; apply Hall|].
    intros _. exists (VEnum m). reflexivity.
  - intros x. apply readonly_call.
Qed.

(** C10.  Iterating over the class yields the three members in the order of
    the class body, [COMPLETED], [DRAFT], [IN_PROGRESS]; their values are
    pairwise distinct, so no name of the class is an alias: every name leads
    to the member that bears it. *)
Theorem iter_definition_order :
  run __iter__ = Ok [COMPLETED; DRAFT; IN_PROGRESS]
  ∧ NoDup (_value_ <$> [COMPLETED; DRAFT; IN_PROGRESS])
  ∧ (∀ v w, _value_ v = _value_ w → v = w)
  ∧ (∀ n m, _member_map_ StocktakeStatus_cls !! n = Some m → _name_ m = n)
  ∧ dom (_member_map_ StocktakeStatus_cls)
    = list_to_set (_member_names_ StocktakeStatus_cls).
Proof.
  split; [apply iter_built|]. split.
  { apply (bool_decide_unpack _). vm_compute. exact I. }
  split; [apply value_inj|]. split.
  - intros n m H. apply member_map_lookup in H. by subst n.
  - rewrite member_map_built, member_names_built, !dom_insert_L, dom_empty_L.
    simpl. set_solver.
Qed.

(** ** Equality *)

(** C5.  Two members compare equal exactly when they are the same member;
    on the members [==] is reflexive, symmetric and transitive, and two
    different members, such as [COMPLETED] and [DRAFT], compare unequal. *)
Theorem eq_iff_same_member :
  (∀ v w, run (__eq__ (VEnum v) (VEnum w)) = Ok true ↔ v = w)
  ∧ (∀ v, run (__eq__ (VEnum v) (VEnum v)) = Ok true)
  ∧ (∀ v w, run (__eq__ (VEnum v) (VEnum w)) = run (__eq__ (VEnum w) (VEnum v)))
  ∧ (∀ u v w, run (__eq__ (VEnum u) (VEnum v)) = Ok true →
              run (__eq__ (VEnum v) (VEnum w)) = Ok true →
              run (__eq__ (VEnum u) (VEnum w)) = Ok true)
  ∧ (∀ v w, v ≠ w → run (__eq__ (VEnum v) (VEnum w)) = Ok false)
  ∧ run (__eq__ (VEnum COMPLETED) (VEnum DRAFT)) = Ok false.
Proof.
  assert (Hiff : ∀ v w, run (__eq__ (VEnum v) (VEnum w)) = Ok true ↔ v = w).
  { intros v w. rewrite <- eq_members. unfold run, __eq__. simpl.
    split; [by intros [= ->] | by intros ->]. }
  split; [exact Hiff|]. split; [|split; [|split; [|split]]].
  - intros v. by apply Hiff.
  - intros v w. by destruct v, w.
  - intros u v w Huv Hvw. apply Hiff in Huv, Hvw. apply Hiff. congruence.
  - intros v w Hne. destruct (eq_values (VEnum v) (VEnum w)) eqn:E.
    + by apply eq_members in E.
    + unfold run, __eq__. simpl. by rewrite E.
  - reflexivity.
Qed.

(** C8.  A member is a string, and it compares equal to the plain string of
    its token, from either side; a plain string is equal to a member exactly
    when it is the member's token.  So [StocktakeStatus.DRAFT == "DRAFT"]
    holds although ["DRAFT"] is no member of the class. *)
Theorem member_equals_token :
  (∀ v, isinstance_str (VEnum v) = true)
  ∧ (∀ v, run (__eq__ (VEnum v) (VStr (_value_ v))) = Ok true)
  ∧ (∀ v, run (__eq__ (VStr (_value_ v)) (VEnum v)) = Ok true)
  ∧ (∀ v s, run (__eq__ (VEnum v) (VStr s)) = Ok true ↔ s = _value_ v)
  ∧ run (__eq__ (VEnum DRAFT) (VStr "DRAFT")) = Ok true
  ∧ type_is_cls (VStr "DRAFT") = None.
Proof.
  split; [reflexivity|]. split; [|split; [|split; [|split]]].
  - intros v. unfold run, __eq__, eq_values. simpl. by rewrite bool_decide_eq_true_2.
  - intros v. unfold run, __eq__, eq_values. simpl. by rewrite bool_decide_eq_true_2.
  - intros v s. unfold run, __eq__, eq_values. simpl. split.
    + intros [= H]. by apply bool_decide_eq_true in H.
    + intros ->. by rewrite bool_decide_eq_true_2.
  - reflexivity.
  - reflexivity.
Qed.

(** ** Purity *)

(** C7.  Construction, string conversion and comparison only read: each
    leaves the class object as it found it.  [__str__] evaluated twice on a
    member gives the same string twice, and its result does not depend on the
    state in which it is evaluated. *)
Theorem operations_pure :
  (∀ x, readonly (StocktakeStatus_call x))
  ∧ (∀ v, readonly (__str__ v))
  ∧ (∀ a b, readonly (__eq__ a b))
  ∧ (∀ v cls, (a ← __str__ v; b ← __str__ v; mret (a, b)) cls
              = (Ok (_value_ v, _value_ v), cls))
  ∧ (∀ v cls cls', fst (__str__ v cls) = fst (__str__ v cls'))
  ∧ (∀ a b cls cls', fst (__eq__ a b cls) = fst (__eq__ a b cls')).
Proof.
  split; [exact readonly_call|]. split; [exact readonly_str|].
  split; [exact readonly_eq|]. repeat split.
Qed.

(** ** Further properties of construction and look-up *)


Lemma readonly_getitem (key : string) : readonly (__getitem__ key).
Proof. unfold __getitem__. auto with readonly. Qed.

Lemma getitem_run (key : string) :
  run (__getitem__ key) =
  match _member_map_ StocktakeStatus_cls !! key with
  | Some m => Ok m
  | None => Raise (KeyError key)
  end.
Proof.
  cbv [run __getitem__ mbind Py_bind get_cls].
  destruct (_member_map_ StocktakeStatus_cls !! key); reflexivity.
Qed.


(** X2.  Decoding then encoding: when the class accepts a plain string, the
    string conversion of the member it returns is that same string, character
    for character. *)
Theorem call_then_str (s : string) (m : StocktakeStatus) :
  run (StocktakeStatus_call (VStr s)) = Ok m → run (__str__ m) = Ok s.
Proof.
  intros H. apply call_Ok in H. simpl in H. injection H as ->. reflexivity.
Qed.

Lemma call_then_str_witness :
  run (StocktakeStatus_call (VStr "DRAFT")) = Ok DRAFT ∧ run (__str__ DRAFT) = Ok "DRAFT".
Proof.
  assert (H : run (StocktakeStatus_call (VStr "DRAFT")) = Ok DRAFT) by reflexivity.
  split; [exact H | exact (call_then_str "DRAFT" DRAFT H)].
Defined.

(** X3.  The string conversion tells members apart: two members have the same
    [__str__] exactly when they are the same member. *)
Theorem str_injective (v w : StocktakeStatus) :
  run (__str__ v) = run (__str__ w) ↔ v = w.
Proof.
  split.
  - intros H. injection H as H. by apply value_inj.
  - by intros ->.
Qed.





(** X6.  Look-up by name and look-up by value agree on plain strings, because
    every member is assigned the string that spells its name: subscripting
    the class with a string returns the member that calling the class on it
    returns, and fails exactly when the call fails, then with [KeyError] on
    the string where the call raises [ValueError]. *)
Theorem getitem_agrees_with_call (s : string) :
  run (__getitem__ s) =
  match run (StocktakeStatus_call (VStr s)) with
  | Ok m => Ok m
  | Raise _ => Raise (KeyError s)
  end.
Proof.
  rewrite getitem_run. unfold run. rewrite call_str.
  destruct (_value2member_map_ StocktakeStatus_cls !! s) as [m|] eqn:E; simpl.
  - apply value2member_lookup in E. subst s.
    assert (Hm : _member_map_ StocktakeStatus_cls !! _value_ m = Some m).
    { apply member_map_lookup. by destruct m. }
    by rewrite Hm.
  - destruct (_member_map_ StocktakeStatus_cls !! s) as [m|] eqn:E'; [|reflexivity].
    apply member_map_lookup in E'. subst s.
    assert (Hm : _value2member_map_ StocktakeStatus_cls !! _name_ m = Some m).
    { apply value2member_lookup. by destruct m. }
    rewrite Hm in E. discriminate E.
Qed.

(** X7.  Subscripting the class with the name of a member returns that
    member and leaves the class as it was. *)
Theorem getitem_name_roundtrip (v : StocktakeStatus) :
  (n ← name v; __getitem__ n) StocktakeStatus_cls = (Ok v, StocktakeStatus_cls).
Proof.
  assert (Hv : _member_map_ StocktakeStatus_cls !! _name_ v = Some v)
    by by apply member_map_lookup.
  cbv [name mbind mret Py_bind Py_ret __getitem__ get_cls]. by rewrite Hv.
Qed.
